(** * ConsciousnessThresholds: a metrics holder and its threshold check

    Shallow embedding of [src/ConsciousnessThresholds.py].

    - Python [float] is IEEE 754 binary64: the metrics are Rocq's primitive
      floats, compared with [PrimFloat.ltb]; a decimal literal such as [0.1]
      denotes the nearest binary64 value here as it does in Python.
    - [self] is a record of the four attributes; the methods run in a small
      state-and-exception monad over that record. The metrics it holds are
      numbers, as the data model says: [update_metrics] stores what it is
      given unchecked, and an object made to hold a string or a list, on
      which the comparisons of [is_conscious] raise [TypeError], is not an
      object of this model.
    - Python dicts are [gmap]s with string keys; a thresholds dict holds
      numbers and lists of domain names, and a lookup of a missing key or a
      comparison with a list raises as in Python. *)

From Stdlib Require Import Floats.
From stdpp Require Import gmap strings list fin_maps.

Set Warnings "-inexact-float,-clear-no-such-hyp".
Local Open Scope string_scope.

(** ** Python values and exceptions *)

(** The values found in a thresholds dict: a number, or a list of names. *)
Inductive value : Type :=
  | VNum (x : float)
  | VList (l : list string).

Inductive exn : Type :=
  | KeyError (k : string)
  | TypeError.

Inductive outcome (A : Type) : Type :=
  | Return (a : A)
  | Raise (e : exn).
Arguments Return {A} a.
Arguments Raise {A} e.

(** ** The object *)

Record ConsciousnessThresholds : Type := mkSelf {
  global_delta_c : float;
  recursive_modeling_score : float;
  memory_integrity_score : float;
  domain_stabilization : gmap string float
}.

Definition set_global_delta_c (x : float) (self : ConsciousnessThresholds) :=
  mkSelf x (recursive_modeling_score self) (memory_integrity_score self)
         (domain_stabilization self).
Definition set_recursive_modeling_score (x : float) (self : ConsciousnessThresholds) :=
  mkSelf (global_delta_c self) x (memory_integrity_score self)
         (domain_stabilization self).
Definition set_memory_integrity_score (x : float) (self : ConsciousnessThresholds) :=
  mkSelf (global_delta_c self) (recursive_modeling_score self) x
         (domain_stabilization self).
Definition set_domain_stabilization (d : gmap string float) (self : ConsciousnessThresholds) :=
  mkSelf (global_delta_c self) (recursive_modeling_score self)
         (memory_integrity_score self) d.

(** ** The method monad: state [self], result or exception *)

Definition M (A : Type) : Type :=
  ConsciousnessThresholds → outcome A * ConsciousnessThresholds.

#[global] Instance M_ret : MRet M := λ A a self, (Return a, self).
#[global] Instance M_bind : MBind M := λ A B f m self,
  match m self with
  | (Return a, self') => f a self'
  | (Raise e, self') => (Raise e, self')
  end.

Definition raise {A} (e : exn) : M A := λ self, (Raise e, self).
Definition getattr {A} (field : ConsciousnessThresholds → A) : M A :=
  λ self, (Return (field self), self).
Definition setattr (upd : ConsciousnessThresholds → ConsciousnessThresholds) : M unit :=
  λ self, (Return tt, upd self).

(** [thresholds[k]] *)
Definition getitem (d : gmap string value) (k : string) : M value :=
  match d !! k with
  | Some v => mret v
  | None => raise (KeyError k)
  end.

(** [a < b] and [a > b] with a float on the left; a list on the right is a
    [TypeError]. *)
Definition py_lt (a : float) (b : value) : M bool :=
  match b with
  | VNum y => mret (a <? y)%float
  | VList _ => raise TypeError
  end.
Definition py_gt (a : float) (b : value) : M bool :=
  match b with
  | VNum y => mret (y <? a)%float
  | VList _ => raise TypeError
  end.

(** [for domain in v]: a number is not iterable. *)
Definition py_iter (v : value) : M (list string) :=
  match v with
  | VList l => mret l
  | VNum _ => raise TypeError
  end.

(** ** [__init__] *)

Definition __init__ : ConsciousnessThresholds :=
  {| global_delta_c := 1.0;
     recursive_modeling_score := 0.0;
     memory_integrity_score := 0.0;
     domain_stabilization := ∅ |}.

(** ** [update_metrics] *)

(** The body of [for domain, pct in domain_updates.items()]. *)
Fixpoint update_domains (items : list (string * float)) : M unit :=
  match items with
  | [] => mret tt
  | (domain, pct) :: rest =>
      setattr (λ self, set_domain_stabilization
                         (<[domain := pct]> (domain_stabilization self)) self);;
      update_domains rest
  end.

Definition update_metrics (delta_c recursive_score memory_score : float)
    (domain_updates : gmap string float) : M unit :=
  setattr (set_global_delta_c delta_c);;
  setattr (set_recursive_modeling_score recursive_score);;
  setattr (set_memory_integrity_score memory_score);;
  update_domains (map_to_list domain_updates).

(** ** [is_conscious] *)

Definition default_thresholds : gmap string value :=
  list_to_map
    [ ("delta_c", VNum 0.1);
      ("recursive_modeling", VNum 0.8);
      ("memory_integrity", VNum 0.85);
      ("min_domain_stabilization", VNum 0.7);
      ("required_domains", VList ["time"; "biology"; "mind"; "learning"]) ].

(** The loop over the required domains, falling through to [return True].
    [self.domain_stabilization.get(domain, 0)] is evaluated before
    [thresholds["min_domain_stabilization"]]; the integer default [0]
    compares as the float zero. *)
Fixpoint check_domains (thresholds : gmap string value) (domains : list string)
    : M bool :=
  match domains with
  | [] => mret true
  | domain :: rest =>
      stab ← getattr domain_stabilization;
      let pct := default 0%float (stab !! domain) in
      bound ← getitem thresholds "min_domain_stabilization";
      low ← py_lt pct bound;
      if low : bool then mret false else check_domains thresholds rest
  end.

Definition is_conscious (thresholds : option (gmap string value)) : M bool :=
  let thresholds := default default_thresholds thresholds in
  dc ← getattr global_delta_c;
  bound ← getitem thresholds "delta_c";
  high ← py_gt dc bound;
  if high : bool then mret false else
  rm ← getattr recursive_modeling_score;
  bound ← getitem thresholds "recursive_modeling";
  low ← py_lt rm bound;
  if low : bool then mret false else
  mi ← getattr memory_integrity_score;
  bound ← getitem thresholds "memory_integrity";
  low ← py_lt mi bound;
  if low : bool then mret false else
  req ← getitem thresholds "required_domains";
  domains ← py_iter req;
  check_domains thresholds domains.

(** The update of the spec's example. *)
Definition example_updates : gmap string float :=
  list_to_map [("time", 0.8); ("biology", 0.75); ("mind", 0.71); ("learning", 0.99)]%float.

(** ** Well-formed policies *)

(** A thresholds dict with the five expected keys, each of the expected
    type. *)
Record policy : Type := mkPolicy {
  p_delta_c : float;
  p_recursive_modeling : float;
  p_memory_integrity : float;
  p_min_domain_stabilization : float;
  p_required_domains : list string
}.

Definition thresholds_of (p : policy) : gmap string value :=
  list_to_map
    [ ("delta_c", VNum (p_delta_c p));
      ("recursive_modeling", VNum (p_recursive_modeling p));
      ("memory_integrity", VNum (p_memory_integrity p));
      ("min_domain_stabilization", VNum (p_min_domain_stabilization p));
      ("required_domains", VList (p_required_domains p)) ].

Definition default_policy : policy :=
  mkPolicy 0.1 0.8 0.85 0.7 ["time"; "biology"; "mind"; "learning"].

Definition with_required_domains (l : list string) (p : policy) : policy :=
  mkPolicy (p_delta_c p) (p_recursive_modeling p) (p_memory_integrity p)
           (p_min_domain_stabilization p) l.

Definition expected_keys : list string :=
  ["delta_c"; "recursive_modeling"; "memory_integrity";
   "min_domain_stabilization"; "required_domains"].

(** The stored stabilization of a domain as [is_conscious] reads it. *)
Definition stabilization (self : ConsciousnessThresholds) (domain : string) : float :=
  default 0%float (domain_stabilization self !! domain).

(** The four condition classes, as the spec lists them (steps 1 to 4). *)
Definition incoherence_ok (self : ConsciousnessThresholds) (p : policy) : bool :=
  negb (p_delta_c p <? global_delta_c self)%float.
Definition self_modeling_ok (self : ConsciousnessThresholds) (p : policy) : bool :=
  negb (recursive_modeling_score self <? p_recursive_modeling p)%float.
Definition memory_ok (self : ConsciousnessThresholds) (p : policy) : bool :=
  negb (memory_integrity_score self <? p_memory_integrity p)%float.
Definition domain_ok (self : ConsciousnessThresholds) (p : policy) (domain : string) : bool :=
  negb (stabilization self domain <? p_min_domain_stabilization p)%float.
Definition domains_ok (self : ConsciousnessThresholds) (p : policy) : bool :=
  forallb (domain_ok self p) (p_required_domains p).

Definition all_conditions (self : ConsciousnessThresholds) (p : policy) : bool :=
  incoherence_ok self p && self_modeling_ok self p && memory_ok self p
  && domains_ok self p.

(** The policy argument as a caller passes it: omitted, or well-formed. *)
Definition policy_arg (t : option policy) : option (gmap string value) :=
  thresholds_of <$> t.

(** The object of the spec's example, after its one update. *)
Definition example_self : ConsciousnessThresholds :=
  (update_metrics 0.05 0.9 0.9 example_updates __init__).2.

(** An object with passing scalars and no entry for the required domain
    ["mind"]. *)
Definition example_no_mind : ConsciousnessThresholds :=
  (update_metrics 0.05 0.9 0.9 (delete "mind" example_updates) __init__).2.

(** ** Sequences of calls *)

Inductive call : Type :=
  | CallUpdate (delta_c recursive_score memory_score : float)
               (domain_updates : gmap string float)
  | CallEvaluate (thresholds : option (gmap string value)).

(** The object after one call; an exception leaves it as the method left it. *)
Definition after_call (self : ConsciousnessThresholds) (c : call) : ConsciousnessThresholds :=
  match c with
  | CallUpdate d r m u => (update_metrics d r m u self).2
  | CallEvaluate t => (is_conscious t self).2
  end.

Definition after_calls (cs : list call) : ConsciousnessThresholds :=
  foldl after_call __init__ cs.

Definition call_keys (c : call) : gset string :=
  match c with
  | CallUpdate _ _ _ u => dom u
  | CallEvaluate _ => ∅
  end.

Definition supplied_keys (cs : list call) : gset string :=
  ⋃ (call_keys <$> cs).

(** ** Malformed thresholds dicts *)

(** The value under an expected key is of the wrong kind: a number where the
    list of domains is expected, a list where a number is. *)
Definition ill_typed (d : gmap string value) (k : string) : Prop :=
  if decide (k = "required_domains")
  then ∃ x, d !! k = Some (VNum x)
  else ∃ l, d !! k = Some (VList l).

(** The keys [is_conscious] reads when no domain is required. *)
Definition scalar_keys : list string :=
  ["delta_c"; "recursive_modeling"; "memory_integrity"; "required_domains"].

(** * Properties *)

(** ** The spec's example *)

Example spec_example_true :
  ((update_metrics 0.05 0.9 0.9 example_updates;; is_conscious None) __init__).1
  = Return true.
Proof. vm_compute. reflexivity. Qed.

Example spec_example_false :
  ((update_metrics 0.05 0.9 0.9 example_updates;;
    update_metrics 0.05 0.9 0.9 {[ "mind" := 0.69%float ]};;
    is_conscious None) __init__).1
  = Return false.
Proof. vm_compute. reflexivity. Qed.

(** A dict that lacks a key raises only if the lookup is reached: on the
    fresh object the incoherence test fails first. *)
Example missing_key_not_reached :
  is_conscious (Some (delete "memory_integrity" default_thresholds)) __init__
  = (Return false, __init__).
Proof. vm_compute. reflexivity. Qed.

(** No range check: a NaN is neither above a maximum nor below a minimum,
    so an object holding NaNs passes the three scalar tests. *)
Example nan_passes_scalar_tests :
  is_conscious (Some (thresholds_of (with_required_domains [] default_policy)))
    (mkSelf nan nan nan ∅)
  = (Return true, mkSelf nan nan nan ∅).
Proof. vm_compute. reflexivity. Qed.

(** ** Binary64 comparison *)

Section binary64.
Local Open Scope float_scope.

Lemma SFcompare_swap (x y : spec_float) :
  SFcompare y x = CompOpp <$> SFcompare x y.
Proof.
  destruct x as [sx|sx| |sx mx ex], y as [sy|sy| |sy my ey]; simpl;
    try reflexivity;
    try (destruct sx; reflexivity); try (destruct sy; reflexivity);
    try (destruct sx, sy; reflexivity).
  assert (Hm : Pos.compare_cont Eq my mx = CompOpp (Pos.compare_cont Eq mx my))
    by (symmetry; apply (Pos.compare_cont_antisym mx my Eq)).
  destruct sx, sy; simpl; try reflexivity; f_equal;
    rewrite (Z.compare_antisym ex ey), Hm;
    destruct (ex ?= ey)%Z; simpl; try reflexivity;
    destruct (Pos.compare_cont Eq mx my); reflexivity.
Qed.

(** [x <= y] excludes [x > y]; this is where a NaN would differ, and a NaN
    satisfies no [<=]. *)
Lemma leb_not_gt (x y : float) : (x <=? y) = true → (y <? x) = false.
Proof.
  rewrite leb_spec, ltb_spec. unfold SFleb, SFltb.
  rewrite (SFcompare_swap (Prim2SF x) (Prim2SF y)).
  destruct (SFcompare (Prim2SF x) (Prim2SF y)) as [[]|]; simpl; congruence.
Qed.
End binary64.

(** ** Running the monad *)

Ltac unfold_M :=
  unfold getattr, setattr, getitem, py_lt, py_gt, py_iter, raise,
    mbind, M_bind, mret, M_ret in *.

(** Case analysis on every dict lookup, value and test met on the way. *)
Ltac run_M :=
  unfold_M; simpl;
  repeat match goal with
         | |- context [match ?t !! ?k with _ => _ end] => destruct (t !! k)
         | |- context [match ?v with VNum _ => _ | VList _ => _ end] => destruct v
         | |- context [if ?b then _ else _] => destruct b
         | |- _ => progress simpl
         end.

Lemma check_domains_unchanged t l self : (check_domains t l self).2 = self.
Proof.
  induction l as [|domain rest IH]; [reflexivity|].
  simpl. run_M; try reflexivity. apply IH.
Qed.

Lemma is_conscious_unchanged t self : (is_conscious t self).2 = self.
Proof.
  unfold is_conscious. generalize (default default_thresholds t) as d. intros d.
  run_M; try reflexivity. apply check_domains_unchanged.
Qed.

(** ** [is_conscious] on a well-formed policy *)

Lemma thresholds_of_lookup p :
  thresholds_of p !! "delta_c" = Some (VNum (p_delta_c p)) ∧
  thresholds_of p !! "recursive_modeling" = Some (VNum (p_recursive_modeling p)) ∧
  thresholds_of p !! "memory_integrity" = Some (VNum (p_memory_integrity p)) ∧
  thresholds_of p !! "min_domain_stabilization"
    = Some (VNum (p_min_domain_stabilization p)) ∧
  thresholds_of p !! "required_domains" = Some (VList (p_required_domains p)).
Proof. repeat split; reflexivity. Qed.

Lemma default_thresholds_policy : default_thresholds = thresholds_of default_policy.
Proof. reflexivity. Qed.

Lemma check_domains_policy p l self :
  check_domains (thresholds_of p) l self
  = (Return (forallb (domain_ok self p) l), self).
Proof.
  destruct (thresholds_of_lookup p) as (_ & _ & _ & Hmin & _).
  induction l as [|domain rest IH]; [reflexivity|].
  simpl. unfold_M. rewrite Hmin. simpl.
  unfold domain_ok at 1, stabilization.
  destruct (_ <? _)%float; simpl; [reflexivity | apply IH].
Qed.

Lemma is_conscious_policy p self :
  is_conscious (Some (thresholds_of p)) self = (Return (all_conditions self p), self).
Proof.
  destruct (thresholds_of_lookup p) as (Hd & Hr & Hm & _ & Hreq).
  unfold is_conscious, all_conditions, incoherence_ok, self_modeling_ok, memory_ok,
    domains_ok.
  unfold_M. simpl. rewrite Hd. simpl.
  destruct (_ <? global_delta_c self)%float; simpl; [reflexivity|].
  rewrite Hr. simpl.
  destruct (recursive_modeling_score self <? _)%float; simpl; [reflexivity|].
  rewrite Hm. simpl.
  destruct (memory_integrity_score self <? _)%float; simpl; [reflexivity|].
  rewrite Hreq. simpl. apply check_domains_policy.
Qed.

Lemma is_conscious_default self :
  is_conscious None self = (Return (all_conditions self default_policy), self).
Proof. apply (is_conscious_policy default_policy). Qed.

(** ** [update_metrics] as a map union *)

Lemma update_domains_result items self :
  update_domains items self
  = (Return tt,
     set_domain_stabilization
       (foldl (λ d kv, <[kv.1 := kv.2]> d) (domain_stabilization self) items) self).
Proof.
  revert self. induction items as [|[domain pct] rest IH]; intros self.
  - destruct self; reflexivity.
  - simpl. unfold_M. rewrite IH. destruct self; reflexivity.
Qed.

Lemma foldl_insert_lookup (items : list (string * float)) (d : gmap string float) k :
  NoDup items.*1 →
  foldl (λ d kv, <[kv.1 := kv.2]> d) d items !! k
  = match list_to_map (M := gmap string float) items !! k with
    | Some v => Some v
    | None => d !! k
    end.
Proof.
  revert d. induction items as [|[k' v'] rest IH]; intros d Hnd; [reflexivity|].
  apply NoDup_cons in Hnd as [Hk' Hnd]. simpl. rewrite IH by done.
  destruct (decide (k' = k)) as [->|Hne].
  - rewrite (not_elem_of_list_to_map_1 rest k) by done.
    by rewrite !lookup_insert_eq.
  - by rewrite !lookup_insert_ne.
Qed.

(** Python yields the items of [domain_updates] in insertion order; the keys
    of a dict are distinct, so the loop ends in the same object whatever the
    order. *)
Lemma update_domains_any_order (u : gmap string float) items self :
  items ≡ₚ map_to_list u →
  update_domains items self = update_domains (map_to_list u) self.
Proof.
  intros Hperm. rewrite !update_domains_result. do 2 f_equal.
  assert (Hnd : NoDup items.*1).
  { rewrite Hperm. apply NoDup_fst_map_to_list. }
  apply map_eq. intros k.
  rewrite !foldl_insert_lookup by (done || apply NoDup_fst_map_to_list).
  by rewrite (list_to_map_proper items (map_to_list u) Hnd Hperm).
Qed.

Lemma update_metrics_result d r m (u : gmap string float) self :
  update_metrics d r m u self
  = (Return tt, mkSelf d r m (u ∪ domain_stabilization self)).
Proof.
  unfold update_metrics. unfold_M. rewrite update_domains_result. simpl.
  unfold set_domain_stabilization. simpl. do 2 f_equal.
  apply map_eq. intros k.
  rewrite foldl_insert_lookup by apply NoDup_fst_map_to_list.
  rewrite list_to_map_to_list, lookup_union.
  destruct (u !! k), (domain_stabilization self !! k); reflexivity.
Qed.

Lemma is_conscious_policy_arg (t : option policy) self :
  is_conscious (policy_arg t) self
  = (Return (all_conditions self (default default_policy t)), self).
Proof.
  destruct t as [p|]; [apply is_conscious_policy | apply is_conscious_default].
Qed.

Lemma all_conditions_true self p :
  all_conditions self p = true ↔
  (p_delta_c p <? global_delta_c self)%float = false ∧
  (recursive_modeling_score self <? p_recursive_modeling p)%float = false ∧
  (memory_integrity_score self <? p_memory_integrity p)%float = false ∧
  ∀ domain, domain ∈ p_required_domains p →
    (stabilization self domain <? p_min_domain_stabilization p)%float = false.
Proof.
  unfold all_conditions, incoherence_ok, self_modeling_ok, memory_ok, domains_ok.
  rewrite !andb_true_iff, !negb_true_iff, forallb_forall.
  setoid_rewrite <- list_elem_of_In. unfold domain_ok.
  setoid_rewrite negb_true_iff. tauto.
Qed.

Lemma all_conditions_false_domain self p domain :
  domain ∈ p_required_domains p →
  (stabilization self domain <? p_min_domain_stabilization p)%float = true →
  all_conditions self p = false.
Proof.
  intros Hin Hlow. apply not_true_is_false. intros Hall.
  apply all_conditions_true in Hall as (_ & _ & _ & Hdom).
  specialize (Hdom domain Hin). congruence.
Qed.

(** ** The claims *)

(** C1: in every state (so in every state reached by updates) whose
    incoherence is [<= 0.1], whose self-modeling score is [>= 0.8], whose
    memory integrity score is [>= 0.85], and in which each of time, biology,
    mind and learning has a stored stabilization [>= 0.7], [is_conscious]
    called without a thresholds argument returns [True]. *)
Theorem C1_default_passes (self : ConsciousnessThresholds) :
  (global_delta_c self <=? 0.1)%float = true →
  (0.8 <=? recursive_modeling_score self)%float = true →
  (0.85 <=? memory_integrity_score self)%float = true →
  (∀ domain, domain ∈ ["time"; "biology"; "mind"; "learning"] →
     ∃ pct, domain_stabilization self !! domain = Some pct
            ∧ (0.7 <=? pct)%float = true) →
  is_conscious None self = (Return true, self).
Proof.
  intros Hd Hr Hm Hdom. rewrite is_conscious_default. do 2 f_equal.
  apply all_conditions_true. simpl. repeat split; try by apply leb_not_gt.
  intros domain Hin. destruct (Hdom domain Hin) as (pct & Hpct & Hge).
  unfold stabilization. rewrite Hpct. simpl. by apply leb_not_gt.
Qed.

Lemma C1_default_passes_witness :
  is_conscious None example_self = (Return true, example_self).
Proof.
  apply (C1_default_passes example_self); try (vm_compute; reflexivity).
  intros domain Hin.
  repeat (apply elem_of_cons in Hin as [->|Hin];
          [eexists; split; vm_compute; reflexivity|]).
  by apply elem_of_nil in Hin.
Defined.

(** C2: on the freshly constructed object, with no update in between,
    [is_conscious] called with the default thresholds returns [False]. *)
Theorem C2_fresh_fails :
  is_conscious None __init__ = (Return false, __init__).
Proof. rewrite is_conscious_default. vm_compute. reflexivity. Qed.

(** C3: each of the four condition classes is individually necessary: from
    a state and policy on which [is_conscious] returns [True], changing the
    incoherence to exceed its maximum, or one score to fall below its minimum,
    or the stabilization of one required domain to fall below the domain
    minimum, and nothing else, makes [is_conscious] return [False]. *)
Theorem C3_each_condition_necessary (self : ConsciousnessThresholds)
    (t : option policy) :
  let p := default default_policy t in
  (is_conscious (policy_arg t) self).1 = Return true →
  (∀ dc, (p_delta_c p <? dc)%float = true →
     (is_conscious (policy_arg t) (set_global_delta_c dc self)).1 = Return false) ∧
  (∀ rm, (rm <? p_recursive_modeling p)%float = true →
     (is_conscious (policy_arg t) (set_recursive_modeling_score rm self)).1
     = Return false) ∧
  (∀ mi, (mi <? p_memory_integrity p)%float = true →
     (is_conscious (policy_arg t) (set_memory_integrity_score mi self)).1
     = Return false) ∧
  (∀ domain pct, domain ∈ p_required_domains p →
     (pct <? p_min_domain_stabilization p)%float = true →
     (is_conscious (policy_arg t)
        (set_domain_stabilization (<[domain := pct]> (domain_stabilization self)) self)).1
     = Return false).
Proof.
  intros p _. repeat split.
  - intros dc Hdc. rewrite is_conscious_policy_arg. simpl. f_equal.
    unfold all_conditions, incoherence_ok. fold p. simpl. by rewrite Hdc.
  - intros rm Hrm. rewrite is_conscious_policy_arg. simpl. f_equal.
    unfold all_conditions, self_modeling_ok. fold p. simpl. rewrite Hrm. simpl.
    by rewrite andb_false_r.
  - intros mi Hmi. rewrite is_conscious_policy_arg. simpl. f_equal.
    unfold all_conditions, memory_ok. fold p. simpl. rewrite Hmi. simpl.
    by rewrite andb_false_r.
  - intros domain pct Hin Hlow. rewrite is_conscious_policy_arg. simpl. f_equal.
    apply (all_conditions_false_domain _ _ domain); [done|].
    unfold stabilization. simpl. by rewrite lookup_insert_eq.
Qed.

Lemma C3_each_condition_necessary_witness :
  (∀ dc, (0.1 <? dc)%float = true →
     (is_conscious None (set_global_delta_c dc example_self)).1 = Return false) ∧
  (∀ rm, (rm <? 0.8)%float = true →
     (is_conscious None (set_recursive_modeling_score rm example_self)).1
     = Return false) ∧
  (∀ mi, (mi <? 0.85)%float = true →
     (is_conscious None (set_memory_integrity_score mi example_self)).1
     = Return false) ∧
  (∀ domain pct, domain ∈ ["time"; "biology"; "mind"; "learning"] →
     (pct <? 0.7)%float = true →
     (is_conscious None
        (set_domain_stabilization
           (<[domain := pct]> (domain_stabilization example_self)) example_self)).1
     = Return false).
Proof.
  apply (C3_each_condition_necessary example_self None).
  vm_compute. reflexivity.
Defined.

(** [is_conscious] reads the domain mapping only through
    [get(domain, 0)]: whatever the thresholds argument, two states with the
    same scalars and the same reading of every domain give the same outcome. *)
Lemma check_domains_ext t l self self' :
  (∀ domain, stabilization self domain = stabilization self' domain) →
  (check_domains t l self).1 = (check_domains t l self').1.
Proof.
  intros Hstab. induction l as [|domain rest IH]; [reflexivity|].
  simpl. unfold_M. simpl.
  pose proof (Hstab domain) as Hd. unfold stabilization in Hd. rewrite Hd.
  destruct (t !! "min_domain_stabilization") as [[bound|]|]; simpl; try reflexivity.
  destruct (_ <? bound)%float; [reflexivity | apply IH].
Qed.

Lemma is_conscious_ext t self self' :
  global_delta_c self = global_delta_c self' →
  recursive_modeling_score self = recursive_modeling_score self' →
  memory_integrity_score self = memory_integrity_score self' →
  (∀ domain, stabilization self domain = stabilization self' domain) →
  (is_conscious t self).1 = (is_conscious t self').1.
Proof.
  intros Hd Hr Hm Hstab. unfold is_conscious.
  generalize (default default_thresholds t) as d. intros d.
  unfold_M. simpl.
  repeat match goal with
         | |- _ => rewrite Hd
         | |- _ => rewrite Hr
         | |- _ => rewrite Hm
         | |- context [match d !! ?k with _ => _ end] => destruct (d !! k)
         | |- context [match ?v with VNum _ => _ | VList _ => _ end] => destruct v
         | |- context [if ?b then _ else _] => destruct b
         | |- _ => progress simpl
         end; try reflexivity.
  by apply check_domains_ext.
Qed.

(** C4: a domain absent from the stored mapping is read exactly as a stored
    [0.0], whatever the thresholds argument; under an omitted or well-formed
    policy the call never raises a [KeyError], so the absence is not reported
    as missing data; and if the domain is required and the domain minimum is
    above zero (the default [0.7] is), the call returns [False]. *)
Theorem C4_absent_domain_is_zero (self : ConsciousnessThresholds) (domain : string) :
  domain_stabilization self !! domain = None →
  (∀ t : option (gmap string value),
     (is_conscious t self).1
     = (is_conscious t
          (set_domain_stabilization
             (<[domain := 0%float]> (domain_stabilization self)) self)).1) ∧
  (∀ (t : option policy) (k : string),
     (is_conscious (policy_arg t) self).1 ≠ Raise (KeyError k)) ∧
  (∀ t : option policy,
     let p := default default_policy t in
     domain ∈ p_required_domains p →
     (0 <? p_min_domain_stabilization p)%float = true →
     is_conscious (policy_arg t) self = (Return false, self)) ∧
  (∀ t : option policy,
     let p := default default_policy t in
     domain ∈ p_required_domains p →
     p_min_domain_stabilization p = 0.7%float →
     is_conscious (policy_arg t) self = (Return false, self)).
Proof.
  intros Habsent.
  assert (Hfalse : ∀ t : option policy,
     let p := default default_policy t in
     domain ∈ p_required_domains p →
     (0 <? p_min_domain_stabilization p)%float = true →
     is_conscious (policy_arg t) self = (Return false, self)).
  { intros t p Hin Hmin. rewrite is_conscious_policy_arg. do 2 f_equal.
    apply (all_conditions_false_domain _ _ domain); [done|].
    unfold stabilization. by rewrite Habsent. }
  repeat split.
  - intros t. apply is_conscious_ext; try reflexivity.
    intros domain'. unfold stabilization. simpl.
    destruct (decide (domain = domain')) as [<-|Hne].
    + by rewrite lookup_insert_eq, Habsent.
    + by rewrite lookup_insert_ne.
  - intros t k. by rewrite is_conscious_policy_arg.
  - exact Hfalse.
  - intros t p Hin Hmin. apply Hfalse; [done|]. fold p. by rewrite Hmin.
Qed.

(** The scalars of [example_no_mind] pass the default policy and three of
    the four required domains are stored above the minimum: the verdict
    [False] is due to the absent ["mind"] alone. *)
Lemma C4_absent_domain_is_zero_witness :
  is_conscious None example_no_mind = (Return false, example_no_mind) ∧
  is_conscious (Some (thresholds_of (with_required_domains
                                       ["time"; "biology"; "learning"] default_policy)))
    example_no_mind
  = (Return true, example_no_mind).
Proof.
  split; [|vm_compute; reflexivity].
  destruct (C4_absent_domain_is_zero example_no_mind "mind") as (_ & _ & _ & H).
  - reflexivity.
  - apply (H None); [| reflexivity].
    simpl. apply list_elem_of_In. simpl. tauto.
Defined.

(** C5: [update_metrics] returns normally, replaces the three scalars by
    the supplied values, sets every domain named in [domain_updates] to its
    supplied value, and leaves every other domain entry as it was. *)
Theorem C5_update_metrics_frame (self : ConsciousnessThresholds)
    (delta_c recursive_score memory_score : float)
    (domain_updates : gmap string float) :
  let self' := (update_metrics delta_c recursive_score memory_score
                  domain_updates self).2 in
  (update_metrics delta_c recursive_score memory_score domain_updates self).1
  = Return tt ∧
  global_delta_c self' = delta_c ∧
  recursive_modeling_score self' = recursive_score ∧
  memory_integrity_score self' = memory_score ∧
  (∀ domain pct, domain_updates !! domain = Some pct →
     domain_stabilization self' !! domain = Some pct) ∧
  (∀ domain, domain_updates !! domain = None →
     domain_stabilization self' !! domain = domain_stabilization self !! domain).
Proof.
  intros self'. subst self'. rewrite update_metrics_result. simpl.
  repeat split.
  - intros domain pct Hin. by apply lookup_union_Some_l.
  - intros domain Hout. by apply lookup_union_r.
Qed.

(** C6: with a policy whose list of required domains is empty,
    [is_conscious] returns [True] exactly when the incoherence is not above
    the policy's maximum and neither score is below its minimum; neither the
    stored domain mapping nor the domain minimum changes the result. *)
Theorem C6_no_required_domains (self : ConsciousnessThresholds) (p : policy) :
  let q := with_required_domains [] p in
  (∃ b, is_conscious (Some (thresholds_of q)) self = (Return b, self) ∧
        (b = true ↔
         (p_delta_c p <? global_delta_c self)%float = false ∧
         (recursive_modeling_score self <? p_recursive_modeling p)%float = false ∧
         (memory_integrity_score self <? p_memory_integrity p)%float = false)) ∧
  (∀ (d : gmap string float) (bound : float),
     (is_conscious
        (Some (thresholds_of
                 (mkPolicy (p_delta_c p) (p_recursive_modeling p)
                           (p_memory_integrity p) bound [])))
        (set_domain_stabilization d self)).1
     = (is_conscious (Some (thresholds_of q)) self).1).
Proof.
  intros q. split.
  - eexists. split; [apply is_conscious_policy|].
    rewrite all_conditions_true. subst q. simpl.
    split; [tauto|]. intros (? & ? & ?). repeat split; try done.
    intros domain Hin. by apply elem_of_nil in Hin.
  - intros d bound. by rewrite !is_conscious_policy.
Qed.

Lemma forallb_Permutation {A} (f : A → bool) (l1 l2 : list A) :
  l1 ≡ₚ l2 → forallb f l1 = forallb f l2.
Proof.
  induction 1 as [|x l1 l2 _ IH|x y l|l1 l2 l3 _ IH1 _ IH2]; simpl.
  - reflexivity.
  - by rewrite IH.
  - by destruct (f x), (f y).
  - by rewrite IH1.
Qed.

(** C7: two policies that differ only in the order of their required
    domains give the same boolean result in every state. *)
Theorem C7_required_order_irrelevant (self : ConsciousnessThresholds) (p : policy)
    (l1 l2 : list string) :
  l1 ≡ₚ l2 →
  ∃ b : bool,
    is_conscious (Some (thresholds_of (with_required_domains l1 p))) self
    = (Return b, self) ∧
    is_conscious (Some (thresholds_of (with_required_domains l2 p))) self
    = (Return b, self).
Proof.
  intros Hperm. eexists. split; [apply is_conscious_policy|].
  rewrite is_conscious_policy. do 2 f_equal.
  unfold all_conditions, domains_ok. simpl. f_equal.
  symmetry. by apply forallb_Permutation.
Qed.

Lemma C7_required_order_irrelevant_witness :
  ∃ b : bool,
    is_conscious
      (Some (thresholds_of (with_required_domains ["time"; "mind"] default_policy)))
      example_self = (Return b, example_self) ∧
    is_conscious
      (Some (thresholds_of (with_required_domains ["mind"; "time"] default_policy)))
      example_self = (Return b, example_self).
Proof.
  apply (C7_required_order_irrelevant example_self default_policy
           ["time"; "mind"] ["mind"; "time"]).
  apply perm_swap.
Defined.

(** C8: [is_conscious] has no side effect: whatever the thresholds
    argument (omitted, well-formed or not), and whether the call returns or
    raises, the object after the call is the object before it. *)
Theorem C8_is_conscious_pure (t : option (gmap string value))
    (self : ConsciousnessThresholds) :
  (is_conscious t self).2 = self.
Proof. apply is_conscious_unchanged. Qed.

(** What a thresholds dict must hold for [is_conscious] to return [True]:
    numbers under the three scalar keys, a list under ["required_domains"]
    and, unless that list is empty, a number under
    ["min_domain_stabilization"]. *)
Lemma is_conscious_true_inv (d : gmap string value) (self : ConsciousnessThresholds) :
  (is_conscious (Some d) self).1 = Return true →
  ∃ x y z l,
    d !! "delta_c" = Some (VNum x) ∧
    d !! "recursive_modeling" = Some (VNum y) ∧
    d !! "memory_integrity" = Some (VNum z) ∧
    d !! "required_domains" = Some (VList l) ∧
    (l = [] ∨ ∃ w, d !! "min_domain_stabilization" = Some (VNum w)).
Proof.
  unfold is_conscious. simpl default. unfold_M. simpl.
  destruct (d !! "delta_c") as [[x|?]|]; simpl; try discriminate.
  destruct (x <? _)%float; simpl; [discriminate|].
  destruct (d !! "recursive_modeling") as [[y|?]|]; simpl; try discriminate.
  destruct (_ <? y)%float; simpl; [discriminate|].
  destruct (d !! "memory_integrity") as [[z|?]|]; simpl; try discriminate.
  destruct (_ <? z)%float; simpl; [discriminate|].
  destruct (d !! "required_domains") as [[?|l]|]; simpl; try discriminate.
  intros H. exists x, y, z, l. repeat split.
  destruct l as [|domain rest]; [by left|]. right. revert H.
  simpl. unfold_M. simpl.
  destruct (d !! "min_domain_stabilization") as [[w|?]|]; simpl;
    try discriminate.
  intros _. by exists w.
Qed.

(** C9: a custom thresholds dict is used as it is, never completed with
    the defaults. For any well-formed policy that the object passes, the same
    dict with one of the five expected keys left out makes [is_conscious]
    raise [KeyError] for that key (for ["min_domain_stabilization"], provided
    a domain is required, the key being read inside the loop); a dict without
    ["delta_c"], the empty dict included, raises in every state; and no dict
    that lacks an expected key ever yields [True], the unread minimum of a
    policy without required domains apart. Only the omitted argument stands
    for the defaults. *)
Theorem C9_missing_key_raises (self : ConsciousnessThresholds) (p : policy)
    (k : string) :
  is_conscious (Some (thresholds_of p)) self = (Return true, self) →
  k ∈ expected_keys →
  (k = "min_domain_stabilization" → p_required_domains p ≠ []) →
  is_conscious (Some (delete k (thresholds_of p))) self = (Raise (KeyError k), self) ∧
  (∀ (d : gmap string value) (self' : ConsciousnessThresholds),
     d !! "delta_c" = None →
     is_conscious (Some d) self' = (Raise (KeyError "delta_c"), self')) ∧
  (∀ (d : gmap string value) (self' : ConsciousnessThresholds) (k' : string),
     k' ∈ expected_keys → d !! k' = None →
     (is_conscious (Some d) self').1 = Return true →
     k' = "min_domain_stabilization" ∧ d !! "required_domains" = Some (VList [])) ∧
  is_conscious None self = is_conscious (Some (thresholds_of default_policy)) self.
Proof.
  intros Hpass Hk Hreq. split; [|split; [|split; [|reflexivity]]].
  - rewrite is_conscious_policy in Hpass.
    assert (Hall : all_conditions self p = true) by congruence.
    apply all_conditions_true in Hall as (Hd & Hr & Hm & Hdom).
    destruct (thresholds_of_lookup p) as (Ld & Lr & Lm & Lmin & Lreq).
    unfold expected_keys in Hk.
    repeat (apply elem_of_cons in Hk as [->|Hk]);
      [.. | by apply elem_of_nil in Hk];
      unfold is_conscious; simpl default; unfold_M;
      repeat first
        [ rewrite lookup_delete_eq
        | rewrite lookup_delete_ne by discriminate
        | rewrite Ld | rewrite Lr | rewrite Lm | rewrite Lreq
        | rewrite Hd | rewrite Hr | rewrite Hm
        | progress cbn beta iota delta [fst snd] ];
      try reflexivity.
    destruct (p_required_domains p) as [|domain rest]; [by destruct Hreq|].
    cbn beta iota delta [check_domains]. unfold_M.
    by rewrite lookup_delete_eq.
  - intros d self' Hnone. unfold is_conscious. simpl default. unfold_M.
    by rewrite Hnone.
  - intros d self' k' Hk' Hnone Htrue.
    apply is_conscious_true_inv in Htrue
      as (x & y & z & l & Ed & Er & Em & Ereq & Emin).
    unfold expected_keys in Hk'.
    repeat (apply elem_of_cons in Hk' as [->|Hk']); try congruence;
      [| by apply elem_of_nil in Hk'].
    split; [reflexivity|].
    destruct Emin as [->|[w Ew]]; [done | congruence].
Qed.

Lemma C9_missing_key_raises_witness :
  is_conscious
    (Some (delete "memory_integrity" (thresholds_of (mkPolicy 0.2 0.5 0.6 0.5 ["mind"]))))
    example_self
  = (Raise (KeyError "memory_integrity"), example_self).
Proof.
  apply (C9_missing_key_raises example_self (mkPolicy 0.2 0.5 0.6 0.5 ["mind"])
           "memory_integrity").
  - vm_compute. reflexivity.
  - apply list_elem_of_In. simpl. tauto.
  - discriminate.
Defined.

(** [update_metrics] can only add keys to the domain mapping. *)
Lemma after_call_dom self c :
  dom (domain_stabilization (after_call self c))
  = dom (domain_stabilization self) ∪ call_keys c.
Proof.
  destruct c as [d r m u|t]; simpl.
  - rewrite update_metrics_result. simpl. rewrite dom_union_L. set_solver.
  - rewrite is_conscious_unchanged. set_solver.
Qed.

Lemma foldl_after_call_dom cs self :
  dom (domain_stabilization (foldl after_call self cs))
  = dom (domain_stabilization self) ∪ supplied_keys cs.
Proof.
  revert self. unfold supplied_keys.
  induction cs as [|c cs IH]; intros self; simpl.
  - set_solver.
  - rewrite IH, after_call_dom. set_solver.
Qed.

(** C10: no call removes a domain entry, and after any sequence of
    [update_metrics] and [is_conscious] calls on a fresh object the key set
    of the domain mapping is the union of the key sets of the
    [domain_updates] arguments supplied so far. *)
Theorem C10_domain_keys_grow :
  (∀ self c, dom (domain_stabilization self)
             ⊆ dom (domain_stabilization (after_call self c))) ∧
  (∀ cs, dom (domain_stabilization (after_calls cs)) = supplied_keys cs).
Proof.
  split.
  - intros self c. rewrite after_call_dom. set_solver.
  - intros cs. unfold after_calls. rewrite foldl_after_call_dom.
    simpl. rewrite dom_empty_L. set_solver.
Qed.

(** * Further properties of the two methods *)

(** ** More on binary64 comparison *)

Section binary64_order.
Local Open Scope float_scope.

Lemma SFcompare_trans (x y z : spec_float) (a b : comparison) :
  SFcompare x y = Some a → SFcompare y z = Some b →
  a ≠ Gt → b ≠ Gt →
  SFcompare x z = Some (match a with Eq => b | _ => Lt end).
Proof.
  destruct x as [sx|sx| |sx mx ex], y as [sy|sy| |sy my ey],
           z as [sz|sz| |sz mz ez]; simpl;
    try discriminate;
    try (destruct sx); try (destruct sy); try (destruct sz); simpl;
    intros [= <-] [= <-] Ha Hb; try congruence; try reflexivity.
  all: f_equal; revert Ha Hb.
  all: repeat match goal with
              | |- context [Pos.compare_cont Eq ?p ?q] =>
                  change (Pos.compare_cont Eq p q) with (Pos.compare p q)
              end.
  all: repeat match goal with
              | |- context [(?a ?= ?b)%Z] => destruct (Z.compare_spec a b)
              | |- context [(?p ?= ?q)%positive] => destruct (Pos.compare_spec p q)
              end; simpl; intros; try congruence; try lia.
Qed.

Lemma ltb_Some_Lt (x y : float) :
  (x <? y) = true ↔ SFcompare (Prim2SF x) (Prim2SF y) = Some Lt.
Proof.
  rewrite ltb_spec. unfold SFltb.
  destruct (SFcompare _ _) as [[]|]; split; congruence.
Qed.

Lemma leb_Some (x y : float) :
  (x <=? y) = true ↔
  ∃ c, SFcompare (Prim2SF x) (Prim2SF y) = Some c ∧ c ≠ Gt.
Proof.
  rewrite leb_spec. unfold SFleb.
  destruct (SFcompare _ _) as [[]|]; split;
    try (intros _; eexists; split; [reflexivity | congruence]);
    try congruence; intros (c & Hc & Hne); congruence.
Qed.

Lemma ltb_leb_trans (x y z : float) :
  (x <? y) = true → (y <=? z) = true → (x <? z) = true.
Proof.
  rewrite !ltb_Some_Lt, leb_Some. intros Hxy (c & Hyz & Hc).
  by rewrite (SFcompare_trans _ _ _ _ _ Hxy Hyz).
Qed.

Lemma leb_ltb_trans (x y z : float) :
  (x <=? y) = true → (y <? z) = true → (x <? z) = true.
Proof.
  rewrite !ltb_Some_Lt, leb_Some. intros (c & Hxy & Hc) Hyz.
  rewrite (SFcompare_trans _ _ _ _ _ Hxy Hyz) by done. by destruct c.
Qed.

(** Passing a test survives moving the tested value the right way. *)
Lemma not_gt_leb (bound x x' : float) :
  (bound <? x) = false → (x' <=? x) = true → (bound <? x') = false.
Proof.
  intros Hx Hle. apply not_true_is_false. intros Hlt.
  by rewrite (ltb_leb_trans _ _ _ Hlt Hle) in Hx.
Qed.

Lemma not_lt_leb (bound x x' : float) :
  (x <? bound) = false → (x <=? x') = true → (x' <? bound) = false.
Proof.
  intros Hx Hle. apply not_true_is_false. intros Hlt.
  by rewrite (leb_ltb_trans _ _ _ Hle Hlt) in Hx.
Qed.

Lemma ltb_irrefl (x : float) : (x <? x) = false.
Proof.
  apply not_true_is_false. rewrite ltb_Some_Lt. intros H.
  pose proof (SFcompare_swap (Prim2SF x) (Prim2SF x)) as Hs.
  rewrite H in Hs. discriminate.
Qed.

Lemma ltb_nan_l (x : float) : (nan <? x) = false.
Proof. rewrite ltb_spec. reflexivity. Qed.

Lemma ltb_nan_r (x : float) : (x <? nan) = false.
Proof.
  rewrite ltb_spec. unfold SFltb.
  change (Prim2SF nan) with S754_nan. by destruct (Prim2SF x).
Qed.
End binary64_order.

(** ** Thresholds dicts as callers may pass them *)

Ltac in_list := apply list_elem_of_In; simpl; tauto.

(** A raised exception is traced to its key. *)
Ltac blame k :=
  intros [= <-];
  first
    [ left; exists k; repeat split; [in_list | done]
    | right; split; [done|]; exists k; split; [in_list|];
      unfold ill_typed; case_decide; try discriminate; try congruence; eauto ].

Lemma check_domains_raise d l self e :
  (check_domains d l self).1 = Raise e →
  (∃ k, e = KeyError k ∧ k ∈ expected_keys ∧ d !! k = None) ∨
  (e = TypeError ∧ ∃ k, k ∈ expected_keys ∧ ill_typed d k).
Proof.
  induction l as [|domain rest IH]; simpl; [discriminate|].
  unfold_M. simpl.
  destruct (d !! "min_domain_stabilization") as [[x|l']|] eqn:E; simpl.
  - destruct (_ <? x)%float; [discriminate | apply IH].
  - blame "min_domain_stabilization".
  - blame "min_domain_stabilization".
Qed.

Lemma check_domains_agree d d' l self :
  d !! "min_domain_stabilization" = d' !! "min_domain_stabilization" →
  check_domains d l self = check_domains d' l self.
Proof.
  intros Hmin. induction l as [|domain rest IH]; [reflexivity|].
  simpl. unfold_M. simpl. rewrite Hmin.
  destruct (d' !! "min_domain_stabilization") as [[x|l']|]; simpl; try reflexivity.
  destruct (_ <? x)%float; [reflexivity | apply IH].
Qed.

(** X1: on an object whose metrics are numbers, whenever [is_conscious]
    raises, a thresholds dict was passed and the exception is its fault: a
    [KeyError] names one of the five expected keys, which the dict lacks, and
    a [TypeError] comes with an expected key that holds a value of the wrong
    kind. On such an object no exception names a domain and the call with the
    argument omitted does not raise. *)
Theorem X1_exceptions_blame_thresholds (t : option (gmap string value))
    (self : ConsciousnessThresholds) (e : exn) :
  (is_conscious t self).1 = Raise e →
  ∃ d, t = Some d ∧
    ((∃ k, e = KeyError k ∧ k ∈ expected_keys ∧ d !! k = None) ∨
     (e = TypeError ∧ ∃ k, k ∈ expected_keys ∧ ill_typed d k)).
Proof.
  destruct t as [d|]; [|rewrite is_conscious_default; discriminate].
  intros H. exists d. split; [done|]. revert H.
  unfold is_conscious. simpl default. unfold_M. simpl.
  destruct (d !! "delta_c") as [[x|l]|] eqn:E1; simpl;
    [| blame "delta_c" | blame "delta_c"].
  destruct (x <? _)%float; simpl; [discriminate|].
  destruct (d !! "recursive_modeling") as [[y|l]|] eqn:E2; simpl;
    [| blame "recursive_modeling" | blame "recursive_modeling"].
  destruct (_ <? y)%float; simpl; [discriminate|].
  destruct (d !! "memory_integrity") as [[z|l]|] eqn:E3; simpl;
    [| blame "memory_integrity" | blame "memory_integrity"].
  destruct (_ <? z)%float; simpl; [discriminate|].
  destruct (d !! "required_domains") as [[w|l]|] eqn:E4; simpl;
    [blame "required_domains" | | blame "required_domains"].
  apply check_domains_raise.
Qed.

Lemma X1_exceptions_blame_thresholds_witness :
  ∃ d, Some (<["delta_c" := VList []]> default_thresholds) = Some d ∧
    ((∃ k, TypeError = KeyError k ∧ k ∈ expected_keys ∧ d !! k = None) ∨
     (TypeError = TypeError ∧ ∃ k, k ∈ expected_keys ∧ ill_typed d k)).
Proof.
  apply (X1_exceptions_blame_thresholds _ __init__ TypeError).
  vm_compute. reflexivity.
Defined.

(** Case analysis along [is_conscious] on an arbitrary dict [d]. *)
Ltac walk d :=
  unfold_M; simpl;
  repeat match goal with
         | |- context [match d !! ?k with _ => _ end] => destruct (d !! k)
         | |- context [match ?v with VNum _ => _ | VList _ => _ end] => destruct v
         | |- context [if ?b then _ else _] => destruct b
         | |- _ => progress simpl
         end; try reflexivity.

(** X2: [is_conscious] reads a thresholds dict only at the five expected
    keys: two dicts that agree there give the same outcome (result or
    exception) in every state, so extra keys are ignored. *)
Theorem X2_extra_keys_ignored (d d' : gmap string value)
    (self : ConsciousnessThresholds) :
  (∀ k, k ∈ expected_keys → d !! k = d' !! k) →
  is_conscious (Some d) self = is_conscious (Some d') self.
Proof.
  intros Hagree.
  pose proof (Hagree "delta_c" ltac:(in_list)) as H1.
  pose proof (Hagree "recursive_modeling" ltac:(in_list)) as H2.
  pose proof (Hagree "memory_integrity" ltac:(in_list)) as H3.
  pose proof (Hagree "min_domain_stabilization" ltac:(in_list)) as H4.
  pose proof (Hagree "required_domains" ltac:(in_list)) as H5.
  unfold is_conscious. simpl default. unfold_M. rewrite H1, H2, H3, H5.
  walk d'. by apply check_domains_agree.
Qed.

Lemma X2_extra_keys_ignored_witness :
  is_conscious (Some (<["comment" := VNum 1]> default_thresholds)) example_self
  = is_conscious (Some default_thresholds) example_self.
Proof.
  apply X2_extra_keys_ignored.
  intros k Hk. apply lookup_insert_ne.
  unfold expected_keys in Hk.
  repeat (apply elem_of_cons in Hk as [->|Hk]; [discriminate|]).
  by apply elem_of_nil in Hk.
Defined.

(** X3: the tests short-circuit, so a failing test hides whatever is
    wrong with the rest of the dict: once an earlier test fails the call
    returns [False] even if later keys are missing or ill-typed. *)
Theorem X3_failed_test_hides_rest (d : gmap string value)
    (self : ConsciousnessThresholds) (x : float) :
  d !! "delta_c" = Some (VNum x) →
  ((x <? global_delta_c self)%float = true →
   is_conscious (Some d) self = (Return false, self)) ∧
  (∀ y, (x <? global_delta_c self)%float = false →
     d !! "recursive_modeling" = Some (VNum y) →
     ((recursive_modeling_score self <? y)%float = true →
      is_conscious (Some d) self = (Return false, self)) ∧
     (∀ z, (recursive_modeling_score self <? y)%float = false →
        d !! "memory_integrity" = Some (VNum z) →
        (memory_integrity_score self <? z)%float = true →
        is_conscious (Some d) self = (Return false, self))).
Proof.
  intros E1. unfold is_conscious. simpl default. unfold_M. simpl.
  rewrite E1. simpl. split; [by intros ->|].
  intros y -> E2. rewrite E2. simpl. split; [by intros ->|].
  intros z -> E3 Hz. rewrite E3. simpl. by rewrite Hz.
Qed.

Lemma X3_failed_test_hides_rest_witness :
  is_conscious (Some {[ "delta_c" := VNum 0.5 ]}) __init__
  = (Return false, __init__).
Proof.
  apply (X3_failed_test_hides_rest {[ "delta_c" := VNum 0.5 ]} __init__ 0.5);
    reflexivity.
Defined.

(** X4: the domain minimum is looked up inside the loop only. With an
    empty list of required domains the key ["min_domain_stabilization"] is
    never read: it may be missing or ill-typed and the outcome is that of any
    dict with the same four other entries. *)
Theorem X4_minimum_unread_without_domains (d d' : gmap string value)
    (self : ConsciousnessThresholds) :
  d !! "required_domains" = Some (VList []) →
  (∀ k, k ∈ scalar_keys → d' !! k = d !! k) →
  is_conscious (Some d') self = is_conscious (Some d) self.
Proof.
  intros Hreq Hagree.
  pose proof (Hagree "delta_c" ltac:(in_list)) as H1.
  pose proof (Hagree "recursive_modeling" ltac:(in_list)) as H2.
  pose proof (Hagree "memory_integrity" ltac:(in_list)) as H3.
  pose proof (Hagree "required_domains" ltac:(in_list)) as H5.
  unfold is_conscious. simpl default. unfold_M. rewrite H1, H2, H3, H5, Hreq.
  walk d.
Qed.

Lemma X4_minimum_unread_without_domains_witness :
  is_conscious
    (Some (delete "min_domain_stabilization"
             (thresholds_of (with_required_domains [] default_policy))))
    example_self
  = is_conscious (Some (thresholds_of (with_required_domains [] default_policy)))
      example_self.
Proof.
  apply X4_minimum_unread_without_domains; [reflexivity|].
  intros k Hk. apply lookup_delete_ne.
  unfold scalar_keys in Hk.
  repeat (apply elem_of_cons in Hk as [->|Hk]; [discriminate|]).
  by apply elem_of_nil in Hk.
Defined.

(** ** Updates in sequence *)

(** X5: two updates in a row act as one: the scalars of the second and
    the union of the two [domain_updates], the second taking precedence on
    common domains. In particular repeating an update changes nothing. *)
Theorem X5_updates_compose (self : ConsciousnessThresholds)
    (d1 r1 m1 d2 r2 m2 : float) (u1 u2 : gmap string float) :
  (update_metrics d1 r1 m1 u1;; update_metrics d2 r2 m2 u2) self
  = update_metrics d2 r2 m2 (u2 ∪ u1) self ∧
  (update_metrics d1 r1 m1 u1;; update_metrics d1 r1 m1 u1) self
  = update_metrics d1 r1 m1 u1 self.
Proof.
  unfold mbind, M_bind. rewrite !update_metrics_result. simpl.
  split; do 2 f_equal.
  - by rewrite (assoc_L (∪)).
  - by rewrite (assoc_L (∪)), (idemp_L (∪)).
Qed.

Lemma forallb_agree {A} (f g : A → bool) (l : list A) :
  (∀ x, x ∈ l → f x = g x) → forallb f l = forallb g l.
Proof.
  induction l as [|x l IH]; intros H; simpl; [reflexivity|].
  rewrite (H x) by apply list_elem_of_here.
  rewrite IH; [reflexivity|]. intros y Hy. apply H. by apply list_elem_of_further.
Qed.

(** X6: an update that names every required domain makes the verdict
    independent of the past: whatever the object held before, updating and
    then evaluating gives the same boolean. *)
Theorem X6_full_update_forgets_history (t : option policy)
    (self self' : ConsciousnessThresholds) (d r m : float)
    (u : gmap string float) :
  (∀ domain, domain ∈ p_required_domains (default default_policy t) →
     is_Some (u !! domain)) →
  ((update_metrics d r m u;; is_conscious (policy_arg t)) self).1
  = ((update_metrics d r m u;; is_conscious (policy_arg t)) self').1.
Proof.
  intros Hfull. unfold mbind, M_bind. rewrite !update_metrics_result.
  rewrite !is_conscious_policy_arg. simpl. f_equal.
  unfold all_conditions. f_equal. unfold domains_ok.
  apply forallb_agree. intros domain Hin.
  unfold domain_ok, stabilization. simpl.
  destruct (Hfull domain Hin) as [pct Hpct].
  by rewrite !(lookup_union_Some_l _ _ _ _ Hpct).
Qed.

Lemma X6_full_update_forgets_history_witness :
  ((update_metrics 0.05 0.9 0.9 example_updates;; is_conscious None) __init__).1
  = ((update_metrics 0.05 0.9 0.9 example_updates;; is_conscious None)
       (mkSelf 0.5 0.5 0.5 {[ "mind" := 0.1%float ]})).1.
Proof.
  apply (X6_full_update_forgets_history None).
  intros domain Hin. simpl in Hin.
  repeat (apply elem_of_cons in Hin as [->|Hin]; [by eexists|]).
  by apply elem_of_nil in Hin.
Defined.

(** ** Verdicts under changes of the metrics and of the policy *)

(** X7: better metrics keep a pass. If [is_conscious] returns [True]
    and the object changes to one with incoherence not larger, scores not
    smaller and, for each required domain, a stabilization reading not
    smaller, it still returns [True]. *)
Theorem X7_better_metrics_keep_pass (t : option policy)
    (self self' : ConsciousnessThresholds) :
  let p := default default_policy t in
  (global_delta_c self' <=? global_delta_c self)%float = true →
  (recursive_modeling_score self <=? recursive_modeling_score self')%float = true →
  (memory_integrity_score self <=? memory_integrity_score self')%float = true →
  (∀ domain, domain ∈ p_required_domains p →
     (stabilization self domain <=? stabilization self' domain)%float = true) →
  is_conscious (policy_arg t) self = (Return true, self) →
  is_conscious (policy_arg t) self' = (Return true, self').
Proof.
  intros p Hd Hr Hm Hdom. rewrite !is_conscious_policy_arg. fold p.
  intros [= Hpass]. do 2 f_equal.
  apply all_conditions_true in Hpass as (Pd & Pr & Pm & Pdom).
  apply all_conditions_true. repeat split.
  - by apply (not_gt_leb _ (global_delta_c self)).
  - by apply (not_lt_leb _ (recursive_modeling_score self)).
  - by apply (not_lt_leb _ (memory_integrity_score self)).
  - intros domain Hin.
    apply (not_lt_leb _ (stabilization self domain)); auto.
Qed.

Lemma X7_better_metrics_keep_pass_witness :
  is_conscious None (set_global_delta_c 0.01 example_self)
  = (Return true, set_global_delta_c 0.01 example_self).
Proof.
  apply (X7_better_metrics_keep_pass None example_self); try reflexivity.
  intros domain Hin. simpl in Hin.
  repeat (apply elem_of_cons in Hin as [->|Hin]; [reflexivity|]).
  by apply elem_of_nil in Hin.
Defined.

(** X8: a looser policy keeps a pass. If [is_conscious] returns [True]
    under a policy, it returns [True] under any policy with a maximum not
    smaller, minimums not larger and no required domain that the first policy
    does not require. *)
Theorem X8_looser_policy_keeps_pass (p p' : policy)
    (self : ConsciousnessThresholds) :
  (p_delta_c p <=? p_delta_c p')%float = true →
  (p_recursive_modeling p' <=? p_recursive_modeling p)%float = true →
  (p_memory_integrity p' <=? p_memory_integrity p)%float = true →
  (p_min_domain_stabilization p' <=? p_min_domain_stabilization p)%float = true →
  (∀ domain, domain ∈ p_required_domains p' → domain ∈ p_required_domains p) →
  is_conscious (Some (thresholds_of p)) self = (Return true, self) →
  is_conscious (Some (thresholds_of p')) self = (Return true, self).
Proof.
  intros Hd Hr Hm Hmin Hsub. rewrite !is_conscious_policy.
  intros [= Hpass]. do 2 f_equal.
  apply all_conditions_true in Hpass as (Pd & Pr & Pm & Pdom).
  apply all_conditions_true. repeat split.
  - apply not_true_is_false. intros Hlt.
    by rewrite (leb_ltb_trans _ _ _ Hd Hlt) in Pd.
  - apply not_true_is_false. intros Hlt.
    by rewrite (ltb_leb_trans _ _ _ Hlt Hr) in Pr.
  - apply not_true_is_false. intros Hlt.
    by rewrite (ltb_leb_trans _ _ _ Hlt Hm) in Pm.
  - intros domain Hin. apply not_true_is_false. intros Hlt.
    pose proof (Pdom domain (Hsub domain Hin)) as Pdomain.
    by rewrite (ltb_leb_trans _ _ _ Hlt Hmin) in Pdomain.
Qed.

Lemma X8_looser_policy_keeps_pass_witness :
  is_conscious (Some (thresholds_of (mkPolicy 0.2 0.5 0.5 0.5 ["mind"])))
    example_self
  = (Return true, example_self).
Proof.
  apply (X8_looser_policy_keeps_pass default_policy); try reflexivity.
  intros domain Hin. simpl in *.
  apply list_elem_of_singleton in Hin as ->. in_list.
Defined.

(** X9: the bounds are inclusive. An object whose incoherence equals
    the policy's maximum, whose scores equal their minimums and whose stored
    stabilization of each required domain equals the domain minimum passes,
    because the tests are the strict [>] and [<]. *)
Theorem X9_bounds_inclusive (p : policy) (self : ConsciousnessThresholds) :
  global_delta_c self = p_delta_c p →
  recursive_modeling_score self = p_recursive_modeling p →
  memory_integrity_score self = p_memory_integrity p →
  (∀ domain, domain ∈ p_required_domains p →
     domain_stabilization self !! domain = Some (p_min_domain_stabilization p)) →
  is_conscious (Some (thresholds_of p)) self = (Return true, self).
Proof.
  intros Hd Hr Hm Hdom. rewrite is_conscious_policy. do 2 f_equal.
  apply all_conditions_true. rewrite Hd, Hr, Hm.
  repeat split; try apply ltb_irrefl.
  intros domain Hin. unfold stabilization. rewrite (Hdom domain Hin). simpl.
  apply ltb_irrefl.
Qed.

Lemma X9_bounds_inclusive_witness :
  is_conscious (Some (thresholds_of (with_required_domains ["mind"] default_policy)))
    (mkSelf 0.1 0.8 0.85 {[ "mind" := 0.7%float ]})
  = (Return true, mkSelf 0.1 0.8 0.85 {[ "mind" := 0.7%float ]}).
Proof.
  apply X9_bounds_inclusive; try reflexivity.
  intros domain Hin. simpl in Hin.
  by apply list_elem_of_singleton in Hin as ->.
Defined.

(** X10: nothing validates the metrics. An object whose three scalars
    are NaN and whose stored stabilization of each required domain is NaN
    passes every well-formed policy, a NaN being neither above a maximum nor
    below a minimum. *)
Theorem X10_nan_metrics_pass (p : policy) (self : ConsciousnessThresholds) :
  global_delta_c self = nan →
  recursive_modeling_score self = nan →
  memory_integrity_score self = nan →
  (∀ domain, domain ∈ p_required_domains p →
     domain_stabilization self !! domain = Some nan) →
  is_conscious (Some (thresholds_of p)) self = (Return true, self).
Proof.
  intros Hd Hr Hm Hdom. rewrite is_conscious_policy. do 2 f_equal.
  apply all_conditions_true. rewrite Hd, Hr, Hm.
  repeat split; try apply ltb_nan_l; try apply ltb_nan_r.
  intros domain Hin. unfold stabilization. rewrite (Hdom domain Hin). simpl.
  apply ltb_nan_l.
Qed.

Lemma X10_nan_metrics_pass_witness :
  is_conscious (Some (thresholds_of (with_required_domains ["mind"] default_policy)))
    (mkSelf nan nan nan {[ "mind" := nan ]})
  = (Return true, mkSelf nan nan nan {[ "mind" := nan ]}).
Proof.
  apply X10_nan_metrics_pass; try reflexivity.
  intros domain Hin. simpl in Hin.
  by apply list_elem_of_singleton in Hin as ->.
Defined.

(** X11: nothing validates the thresholds either. A policy whose four
    numbers are NaN is passed by every object whose metrics are numbers,
    whatever those numbers are and whatever domains the policy requires. *)
Theorem X11_nan_policy_passes_all (self : ConsciousnessThresholds)
    (domains : list string) :
  is_conscious (Some (thresholds_of (mkPolicy nan nan nan nan domains))) self
  = (Return true, self).
Proof.
  rewrite is_conscious_policy. do 2 f_equal.
  apply all_conditions_true. simpl.
  repeat split; try apply ltb_nan_l; try apply ltb_nan_r.
  intros domain _. apply ltb_nan_r.
Qed.

Lemma forallb_same_elements {A} (f : A → bool) (l1 l2 : list A) :
  (∀ x, x ∈ l1 ↔ x ∈ l2) → forallb f l1 = forallb f l2.
Proof.
  intros Hsame. apply eq_true_iff_eq. rewrite !forallb_forall.
  setoid_rewrite <- list_elem_of_In. by setoid_rewrite Hsame.
Qed.

(** X12: only the set of required domains matters. Two policies whose
    lists of required domains have the same elements, in any order and with
    any repetitions, give the same boolean in every state. *)
Theorem X12_required_domains_as_set (p : policy) (l1 l2 : list string)
    (self : ConsciousnessThresholds) :
  (∀ domain, domain ∈ l1 ↔ domain ∈ l2) →
  is_conscious (Some (thresholds_of (with_required_domains l1 p))) self
  = is_conscious (Some (thresholds_of (with_required_domains l2 p))) self.
Proof.
  intros Hsame. rewrite !is_conscious_policy. do 2 f_equal.
  unfold all_conditions, domains_ok. simpl. f_equal.
  by apply forallb_same_elements.
Qed.

Lemma X12_required_domains_as_set_witness :
  is_conscious
    (Some (thresholds_of (with_required_domains ["mind"; "time"; "mind"] default_policy)))
    example_self
  = is_conscious
      (Some (thresholds_of (with_required_domains ["time"; "mind"] default_policy)))
      example_self.
Proof.
  apply X12_required_domains_as_set.
  intros domain. rewrite !elem_of_cons. tauto.
Defined.

(** X13: [is_conscious] reads the domain mapping at the required
    domains only. Two objects with the same scalars and the same entries for
    the required domains get the same verdict, whatever else their mappings
    hold. *)
Theorem X13_other_domains_unread (t : option policy)
    (self self' : ConsciousnessThresholds) :
  global_delta_c self = global_delta_c self' →
  recursive_modeling_score self = recursive_modeling_score self' →
  memory_integrity_score self = memory_integrity_score self' →
  (∀ domain, domain ∈ p_required_domains (default default_policy t) →
     domain_stabilization self !! domain = domain_stabilization self' !! domain) →
  (is_conscious (policy_arg t) self).1 = (is_conscious (policy_arg t) self').1.
Proof.
  intros Hd Hr Hm Hdom. rewrite !is_conscious_policy_arg. simpl. f_equal.
  unfold all_conditions, incoherence_ok, self_modeling_ok, memory_ok, domains_ok.
  rewrite Hd, Hr, Hm. f_equal.
  apply forallb_agree. intros domain Hin.
  unfold domain_ok, stabilization. by rewrite (Hdom domain Hin).
Qed.

Lemma X13_other_domains_unread_witness :
  (is_conscious None example_self).1
  = (is_conscious None
       (set_domain_stabilization
          (<["weather" := 0%float]> (domain_stabilization example_self))
          example_self)).1.
Proof.
  apply (X13_other_domains_unread None); try reflexivity.
  intros domain Hin. simpl in Hin.
  repeat (apply elem_of_cons in Hin as [->|Hin]; [reflexivity|]).
  by apply elem_of_nil in Hin.
Defined.

(** X14: the default reading [0] of an absent domain is compared like
    any stored value, so under a policy whose domain minimum is at most zero
    absent domains pass: with no entry for any required domain the verdict is
    that of the three scalar tests alone. *)
Theorem X14_absent_domains_pass_low_minimum (p : policy)
    (self : ConsciousnessThresholds) :
  (p_min_domain_stabilization p <=? 0)%float = true →
  (∀ domain, domain ∈ p_required_domains p →
     domain_stabilization self !! domain = None) →
  is_conscious (Some (thresholds_of p)) self
  = is_conscious (Some (thresholds_of (with_required_domains [] p))) self.
Proof.
  intros Hmin Habsent. rewrite !is_conscious_policy. do 2 f_equal.
  unfold all_conditions. simpl.
  assert (Hdoms : domains_ok self p = true).
  { apply forallb_forall. intros domain Hin%list_elem_of_In.
    unfold domain_ok, stabilization. rewrite (Habsent domain Hin). simpl.
    by rewrite (leb_not_gt _ _ Hmin). }
  rewrite Hdoms. unfold domains_ok. simpl. reflexivity.
Qed.

Lemma X14_absent_domains_pass_low_minimum_witness :
  is_conscious (Some (thresholds_of (mkPolicy 1 0 0 0 ["mind"]))) __init__
  = is_conscious
      (Some (thresholds_of (with_required_domains [] (mkPolicy 1 0 0 0 ["mind"]))))
      __init__.
Proof.
  apply X14_absent_domains_pass_low_minimum; [reflexivity|].
  intros domain _. reflexivity.
Defined.
